(** * Indico user/group search dialog: a shallow embedding

    The development follows the React module that builds the user and group
    search dialogs ([searchFactory], [InnerUserSearch], [_UserSearch],
    [GroupSearch]).

    - [Js]: the JavaScript values that travel through the search form, their
      truthiness, and plain objects as finite maps from property names.
    - [Search]: the component returned by [searchFactory]: its two
      [useState] cells, the four event handlers, the rendered buttons and the
      events a user can fire on them.
    - [Query]: the two [runSearch] functions and [validateForm].
    - [Wrapper]: [_UserSearch], which works on a caller-owned object, so the
      store of objects is explicit there.
    - [Display]: what the inner components of [searchFactory] put on screen:
      result rows, the favourites dropdown and the header popup.
    - [Session]: the calls the embedding page sees over a sequence of
      events. *)

From stdpp Require Import base option list strings gmap.
From stdpp Require Import pretty sorting.
From Stdlib Require Import ZArith.

Local Open Scope Z_scope.
Local Open Scope string_scope.

(** ** JavaScript values and objects *)

Module Js.

(** Primitive values, and [Ref] for anything that lives on the heap
    (objects, arrays, functions). *)
Inductive value : Type :=
| Undefined
| Null
| Bool (b : bool)
| Num (n : Z)
| NaN
| Str (s : string)
| Ref (l : nat).

(** [!!val] *)
Definition truthy (v : value) : bool :=
  match v with
  | Undefined | Null | NaN => false
  | Bool b => b
  | Num n => negb (Z.eqb n 0)
  | Str s => negb (String.eqb s "")
  | Ref _ => true
  end.

(** A plain object: a finite map from own enumerable string keys. *)
Abbreviation obj := (gmap string value).

(** [o.k]: a missing property reads as [undefined]. *)
Definition get (o : obj) (k : string) : value := default Undefined (o !! k).

(** [Object.entries(o)] *)
Definition entries (o : obj) : list (string * value) := map_to_list o.

(** [_.fromPairs(l)] *)
Definition fromPairs (l : list (string * value)) : obj := list_to_map l.

End Js.

(** ** The component built by [searchFactory] *)

Module Search.

(** A search result or favourite, in the shape both [runSearch] functions
    produce. Groups carry no [userId]. *)
Record Item : Type := {
  identifier : string;
  userId : option Z;
  name : string;
  detail : option string;
  group : bool
}.

(** What [onAddItems] receives: the bare item in single mode, the staged
    array otherwise. *)
Inductive Payload : Type :=
| One (i : Item)
| Many (l : list Item).

(** The two shapes of argument [setStaged] is given in the source: a new
    array, or the updater [prev => [...prev, item]]. *)
Inductive StagedUpdater : Type :=
| Replace (l : list Item)
| Append (i : Item).

Inductive Update : Type :=
| SetOpen (b : bool)
| SetStaged (u : StagedUpdater).

(** Calls into the embedding page. *)
Inductive Call : Type :=
| OnAddItems (p : Payload)
| OnOpen
| OnClose.

(** What a handler does, in program order. *)
Inductive Effect : Type :=
| Upd (u : Update)
| Ext (c : Call).

(** The props the handlers read. [customTrigger] says whether
    [triggerFactory] was supplied; [favorites] only feeds the rendering of
    the dropdown. *)
Record Props : Type := {
  disabled : bool;
  existing : list string;
  single : bool;
  customTrigger : bool
}.

(** The two [useState] cells of [Search]. *)
Record State : Type := {
  open : bool;
  staged : list Item
}.

Definition initial : State := {| open := false; staged := [] |}.

(** *** Handlers

    A handler is a closure over the props and the state of the render it was
    created in; running it yields its effects in order. *)

Definition isAdded (p : Props) (st : State) (it : Item) : bool :=
  bool_decide (identifier it ∈ existing p)
  || existsb (λ x, bool_decide (identifier x = identifier it)) (staged st).

Definition handleAdd (p : Props) (st : State) (it : Item) : list Effect :=
  if single p then
    [Ext (OnAddItems (One it)); Upd (SetOpen false)]
  else if negb (isAdded p st it) then
    [Upd (SetStaged (Append it))]
  else [].

Definition handleAddButtonClick (p : Props) (st : State) : list Effect :=
  [Ext (OnAddItems (Many (staged st)));
   Upd (SetStaged (Replace []));
   Upd (SetOpen false)].

Definition handleOpenClick (p : Props) (st : State) : list Effect :=
  if disabled p then []
  else [Upd (SetOpen true); Ext OnOpen].

Definition handleClose (p : Props) (st : State) : list Effect :=
  [Upd (SetStaged (Replace []));
   Upd (SetOpen false);
   Ext OnClose].

(** *** React's update queue *)

Definition apply_staged (u : StagedUpdater) (prev : list Item) : list Item :=
  match u with
  | Replace l => l
  | Append it => prev ++ [it]
  end.

Definition apply_update (st : State) (u : Update) : State :=
  match u with
  | SetOpen b => {| open := b; staged := staged st |}
  | SetStaged f => {| open := open st; staged := apply_staged f (staged st) |}
  end.

Definition apply_effect (st : State) (e : Effect) : State :=
  match e with
  | Upd u => apply_update st u
  | Ext _ => st
  end.

(** The state of the next render: queued updates applied in order. *)
Definition commit (st : State) (es : list Effect) : State :=
  foldl apply_effect st es.

(** The calls the page observed, in order. *)
Definition calls (es : list Effect) : list Call :=
  omap (λ e, match e with Ext c => Some c | Upd _ => None end) es.

(** *** What is rendered *)

(** A Semantic UI [Button]: a disabled one swallows the click. *)
Record Button : Type := {
  btn_disabled : bool;
  btn_onClick : list Effect
}.

Definition click (b : Button) : list Effect :=
  if btn_disabled b then [] else btn_onClick b.

(** The trigger is the default [Button], or whatever [triggerFactory]
    builds from [{disabled, onClick: handleOpenClick}]; for the latter the
    only guard is the one inside [handleOpenClick]. *)
Inductive Trigger : Type :=
| DefaultTrigger (b : Button)
| CustomTrigger (is_disabled : bool) (onClick : list Effect).

Definition click_trigger (t : Trigger) : list Effect :=
  match t with
  | DefaultTrigger b => click b
  | CustomTrigger _ h => h
  end.

(** The header label, shown when [!!staged.length]. *)
Definition badge (st : State) : option nat :=
  match length (staged st) with
  | O => None
  | n => Some n
  end.

(** The modal body exists only while the modal is open. *)
Record ModalView : Type := {
  mv_badge : option nat;
  mv_onAdd : Item → list Effect;
  mv_isAdded : Item → bool;
  mv_confirm : option Button;
  mv_cancel : Button;
  mv_onClose : list Effect
}.

Record View : Type := {
  v_trigger : Trigger;
  v_modal : option ModalView
}.

Definition render (p : Props) (st : State) : View :=
  {| v_trigger :=
       if customTrigger p then CustomTrigger (disabled p) (handleOpenClick p st)
       else DefaultTrigger {| btn_disabled := disabled p;
                              btn_onClick := handleOpenClick p st |};
     v_modal :=
       if open st then
         Some {| mv_badge := badge st;
                 mv_onAdd := handleAdd p st;
                 mv_isAdded := isAdded p st;
                 mv_confirm :=
                   if single p then None
                   else Some {| btn_disabled := bool_decide (length (staged st) = 0%nat);
                                btn_onClick := handleAddButtonClick p st |};
                 mv_cancel := {| btn_disabled := false;
                                 btn_onClick := handleClose p st |};
                 mv_onClose := handleClose p st |}
       else None |}.

(** *** User events *)

Inductive Event : Type :=
| ClickTrigger
| ClickConfirm
| ClickCancel
| CloseModal                  (* close icon, dimmer, escape *)
| ClickResultAdd (r : Item)   (* the action cell of a result row *)
| ClickFavorite (x : Item).   (* an entry of the favourites dropdown *)

(** [ResultItem] shows a check mark instead of the add icon when [added];
    [FavoriteItem] always forwards the click to [onAdd]. *)
Definition in_modal (v : View) (f : ModalView → list Effect) : list Effect :=
  match v_modal v with
  | Some m => f m
  | None => []
  end.

Definition dispatch (v : View) (ev : Event) : list Effect :=
  match ev with
  | ClickTrigger => click_trigger (v_trigger v)
  | ClickConfirm =>
      in_modal v (λ m, match mv_confirm m with Some b => click b | None => [] end)
  | ClickCancel => in_modal v (λ m, click (mv_cancel m))
  | CloseModal => in_modal v mv_onClose
  | ClickResultAdd r =>
      in_modal v (λ m, if mv_isAdded m r then [] else mv_onAdd m r)
  | ClickFavorite x => in_modal v (λ m, mv_onAdd m x)
  end.

(** One event: render, run the handler, commit. *)
Definition effects_of (p : Props) (st : State) (ev : Event) : list Effect :=
  dispatch (render p st) ev.

Definition step (p : Props) (st : State) (ev : Event) : State * list Call :=
  let es := effects_of p st ev in (commit st es, calls es).

(** A session: the parent may pass different props at every render. *)
Fixpoint run (st : State) (evs : list (Props * Event)) : State :=
  match evs with
  | [] => st
  | (p, ev) :: rest => run (fst (step p st ev)) rest
  end.

End Search.

(** ** Search requests and form validation *)

Module Query.
Import Js.

(** [{[FORM_ERROR]: msg}], with final-form's key for form-wide errors. *)
Definition FORM_ERROR : string := "FINAL_FORM/form-error".

(** [validateForm] of [InnerUserSearch]; [None] is [undefined]. *)
Definition validateForm (values : obj) : option obj :=
  if negb (truthy (get values "first_name"))
     && negb (truthy (get values "last_name"))
     && negb (truthy (get values "email"))
     && negb (truthy (get values "affiliation"))
  then Some {[ FORM_ERROR := Str "No criteria specified" ]}
  else None.

(** [_.fromPairs(Object.entries(data).filter(([, val]) => !!val))] *)
Definition truthyEntries (data : obj) : obj :=
  fromPairs (filter (λ kv, truthy kv.2) (entries data)).

(** The two URL builders. *)
Inductive Endpoint : Type :=
| userSearchURL
| groupSearchURL.

(** The response body after [camelizeKeys], as far as [runSearch] reads
    it. *)
Record RawUser : Type := {
  u_identifier : string;
  u_id : Z;
  u_fullName : string;
  u_email : string;
  u_affiliation : string
}.

Record RawGroup : Type := {
  g_identifier : string;
  g_name : string;
  g_providerTitle : option string
}.

Record UserData : Type := { ud_total : Z; ud_users : list RawUser }.
Record GroupData : Type := { gd_total : Z; gd_groups : list RawGroup }.

(** What [SearchContent] keeps in its [result] cell and hands to
    [SearchResults]. *)
Record ResultData : Type := {
  total : Z;
  results : list Search.Item
}.

Definition userItem (u : RawUser) : Search.Item :=
  {| Search.identifier := u_identifier u;
     Search.userId := Some (u_id u);
     Search.name := u_fullName u;
     Search.detail :=
       Some (if String.eqb (u_affiliation u) "" then u_email u
             else u_email u ++ " (" ++ u_affiliation u ++ ")");
     Search.group := false |}.

Definition groupItem (g : RawGroup) : Search.Item :=
  {| Search.identifier := g_identifier g;
     Search.userId := None;
     Search.name := g_name g;
     Search.detail :=
       match g_providerTitle g with
       | Some t => if String.eqb t "" then None else Some t
       | None => None
       end;
     Search.group := true |}.

Section RunSearch.

(** Imported helpers whose code lives elsewhere: the error a rejected
    request carries, the raw response, [handleSubmitError] and
    [camelizeKeys] at the two response shapes. *)
Context {Error SubmitErrors Response : Type}.
Variable handleSubmitError : Error → SubmitErrors.
Variable camelizeUsers : Response → UserData.
Variable camelizeGroups : Response → GroupData.

(** An async function body: its visible operations in order, the
    continuation of [await indicoAxios.get] taking either the thrown
    error or the response. *)
Inductive Prog (R : Type) : Type :=
| Return (r : R)
| SetResult (v : option ResultData) (k : Prog R)
| Get (ep : Endpoint) (query : obj) (k : Error + Response → Prog R).

Arguments Return {R} r.
Arguments SetResult {R} v k.
Arguments Get {R} ep query k.

(** [runSearch] of [InnerUserSearch]; the returned [None] is
    [undefined]. *)
Definition userRunSearch (data : obj) : Prog (option SubmitErrors) :=
  SetResult None
    (let values := truthyEntries data in
     let values := <["favorites_first" := Bool true]> values in
     Get userSearchURL values (λ r,
       match r with
       | inl error => Return (Some (handleSubmitError error))
       | inr response =>
           let resultData := camelizeUsers response in
           SetResult
             (Some {| total := ud_total resultData;
                      results := userItem <$> ud_users resultData |})
             (Return None)
       end)).

(** [runSearch] of [GroupSearch]. *)
Definition groupRunSearch (data : obj) : Prog (option SubmitErrors) :=
  SetResult None
    (let values := truthyEntries data in
     Get groupSearchURL values (λ r,
       match r with
       | inl error => Return (Some (handleSubmitError error))
       | inr response =>
           let resultData := camelizeGroups response in
           SetResult
             (Some {| total := gd_total resultData;
                      results := groupItem <$> gd_groups resultData |})
             (Return None)
       end)).

(** What happened during a run. *)
Inductive Obs : Type :=
| DidSetResult (v : option ResultData)
| DidGet (ep : Endpoint) (query : obj).

Record Outcome (R : Type) : Type := {
  trace : list Obs;
  shown : option ResultData;   (* the [result] cell afterwards *)
  returned : R
}.

Arguments trace {R} _.
Arguments shown {R} _.
Arguments returned {R} _.

(** Run against a server, starting from the [result] currently shown. *)
Fixpoint exec {R} (server : Endpoint → obj → Error + Response)
    (prog : Prog R) (result : option ResultData) : Outcome R :=
  match prog with
  | Return r => {| trace := []; shown := result; returned := r |}
  | SetResult v k =>
      let o := exec server k v in
      {| trace := DidSetResult v :: trace o;
         shown := shown o; returned := returned o |}
  | Get ep q k =>
      let o := exec server (k (server ep q)) result in
      {| trace := DidGet ep q :: trace o;
         shown := shown o; returned := returned o |}
  end.

End RunSearch.

Arguments Return {Error Response R} r.
Arguments SetResult {Error Response R} v k.
Arguments Get {Error Response R} ep query k.
Arguments trace {R} _.
Arguments shown {R} _.
Arguments returned {R} _.

End Query.

(** ** The context-providing wrapper *)

Module Wrapper.
Import Js.

(** Objects are passed by reference. *)
Abbreviation heap := (gmap nat obj).

(** The values of the two context providers. *)
Record Contexts : Type := {
  WithExternalsContext : bool;
  InitialFormValuesContext : nat
}.

(** [_UserSearch]: [delete initialFormValues.external] acts on the object
    the caller passed. *)
Definition UserSearch (withExternalUsers : bool) (initialFormValues : nat)
    (h : heap) : heap * Contexts :=
  let h :=
    if negb withExternalUsers
    then alter (delete "external") initialFormValues h
    else h in
  (h, {| WithExternalsContext := withExternalUsers;
         InitialFormValuesContext := initialFormValues |}).

(** [useContext(InitialFormValuesContext)] in [SearchForm], dereferenced. *)
Definition initialValues (h : heap) (c : Contexts) : option obj :=
  h !! InitialFormValuesContext c.

End Wrapper.

(** ** What the inner components show *)

Module Display.
Import Search.

(** The part of [searchFactory]'s [config] that decides what is shown
    (texts as their English source strings). *)
Record Config : Type := {
  componentName : string;
  resultIcon : string;
  favoriteKey : option string;
  noResultsText : string;
  tooManyText : string
}.

Definition InnerUserSearch : Config :=
  {| componentName := "InnerUserSearch";
     resultIcon := "user";
     favoriteKey := Some "userId";
     noResultsText := "No users found";
     tooManyText :=
       "Your query matched too many users. Please try more specific search criteria." |}.

Definition GroupSearch : Config :=
  {| componentName := "GroupSearch";
     resultIcon := "users";
     favoriteKey := None;
     noResultsText := "No groups found";
     tooManyText :=
       "Your query matched too many groups. Please try more specific search criteria." |}.

(** [r[k]] on a result object. *)
Definition item_get (r : Item) (k : string) : Js.value :=
  if String.eqb k "identifier" then Js.Str (identifier r)
  else if String.eqb k "userId" then
    match userId r with Some n => Js.Num n | None => Js.Undefined end
  else if String.eqb k "name" then Js.Str (name r)
  else if String.eqb k "detail" then
    match detail r with Some d => Js.Str d | None => Js.Null end
  else if String.eqb k "group" then Js.Bool (group r)
  else Js.Undefined.

(** The property key a value turns into on the left of [in]. *)
Definition toPropertyKey (v : Js.value) : string :=
  match v with
  | Js.Undefined => "undefined"
  | Js.Null => "null"
  | Js.Bool true => "true"
  | Js.Bool false => "false"
  | Js.Num n => pretty n
  | Js.NaN => "NaN"
  | Js.Str s => s
  | Js.Ref _ => "[object Object]"
  end.

(** The [favorites] prop: [null], or an object given by its entries in the
    order [Object.values] lists them. *)
Abbreviation Favorites := (option (list (string * Item))).

(** [(favorites && favoriteKey) ? (r[favoriteKey] in favorites) : false] *)
Definition isFavorite (cfg : Config) (favorites : Favorites) (r : Item) : bool :=
  match favorites, favoriteKey cfg with
  | Some favs, Some key =>
      if Js.truthy (Js.Str key)
      then bool_decide (toPropertyKey (item_get r key) ∈ favs.*1)
      else false
  | _, _ => false
  end.

(** [_.sortBy(l, 'name')]: ascending by name, equal names in their original
    order. Names are compared as [String.leb] does, character code by
    character code. *)
Fixpoint insert_by_name (x : Item) (l : list Item) : list Item :=
  match l with
  | [] => [x]
  | y :: l' =>
      if String.leb (name x) (name y) then x :: y :: l'
      else y :: insert_by_name x l'
  end.

Definition sortBy_name (l : list Item) : list Item :=
  foldr insert_by_name [] l.

(** The order [sortBy_name] sorts by. *)
Definition name_le (a b : Item) : Prop := String.leb (name a) (name b) = true.

(** [ResultItem]: the add icon is there only when [added] is false. *)
Record ResultRow : Type := {
  row_item : Item;
  row_added : bool;
  row_favorite : bool;
  row_onAdd : option (list Effect)
}.

Definition ResultItem (r : Item) (added favorite : bool) (onAdd : list Effect)
    : ResultRow :=
  {| row_item := r; row_added := added; row_favorite := favorite;
     row_onAdd := if added then None else Some onAdd |}.

(** [SearchResults]: the no-results divider, or the list with the optional
    too-many message. *)
Inductive ResultsView : Type :=
| NoResults (text : string)
| ResultList (rows : list ResultRow) (tooMany : option string).

Definition SearchResults (cfg : Config) (results : list Item) (total : Z)
    (onAdd : Item → list Effect) (isAdded : Item → bool)
    (favorites : Favorites) : ResultsView :=
  if negb (Z.eqb total 0) then
    ResultList
      ((λ r, ResultItem r (isAdded r) (isFavorite cfg favorites r) (onAdd r))
         <$> results)
      (if bool_decide (Z.of_nat (length results) < total)%Z
       then Some (tooManyText cfg) else None)
  else NoResults (noResultsText cfg).

(** [SearchContent], below the form: nothing while [result] is null. *)
Definition SearchContent (cfg : Config) (onAdd : Item → list Effect)
    (isAdded : Item → bool) (favorites : Favorites)
    (result : option Query.ResultData) : option ResultsView :=
  match result with
  | None => None
  | Some r =>
      Some (SearchResults cfg (Query.results r) (Query.total r)
              onAdd isAdded favorites)
  end.

(** [FavoriteItem]: shown as disabled when [added], but the click still
    reaches [onAdd]. *)
Record FavoriteEntry : Type := {
  fav_item : Item;
  fav_added : bool;
  fav_onClick : list Effect
}.

(** The dropdown of [SearchForm], under [!_.isEmpty(favorites)]. *)
Definition favoritesDropdown (favorites : Favorites)
    (isAdded : Item → bool) (onAdd : Item → list Effect)
    : option (list FavoriteEntry) :=
  match favorites with
  | None | Some [] => None
  | Some favs =>
      Some ((λ x, {| fav_item := x; fav_added := isAdded x;
                     fav_onClick := onAdd x |})
              <$> sortBy_name favs.*2)
  end.

(** The label and popup of the modal header, under [!!staged.length]. *)
Definition headerPopup (st : State) : option (nat * list Item) :=
  if bool_decide (length (staged st) = 0%nat) then None
  else Some (length (staged st), sortBy_name (staged st)).

End Display.

(** ** Sessions as the embedding page sees them *)

Module Session.
Import Search.

(** The calls made over a sequence of events, oldest first. *)
Fixpoint run_calls (st : State) (evs : list (Props * Event)) : list Call :=
  match evs with
  | [] => []
  | (p, ev) :: rest =>
      (step p st ev).2 ++ run_calls (step p st ev).1 rest
  end.

(** Adding the items of a list one after the other, each through a result
    row or through the favourites dropdown. *)
Definition add_events (p : Props) (via : Item → Event) (its : list Item)
    : list (Props * Event) :=
  (λ it, (p, via it)) <$> its.

(** What [handleAdd] amounts to as a step: the next state and the calls. *)
Definition add_outcome (p : Props) (st : State) (it : Item)
    : State * list Call :=
  if single p then
    ({| open := false; staged := staged st |}, [OnAddItems (One it)])
  else if isAdded p st it then (st, [])
  else ({| open := open st; staged := (staged st ++ [it])%list |}, []).

(** The invariant of a session with one value [s] of [single] throughout:
    a closed modal has nothing staged, and single mode never has. *)
Definition closed_clean (s : bool) (st : State) : Prop :=
  (open st = false → staged st = []) ∧ (s = true → staged st = []).

End Session.

(** * Properties *)

Local Open Scope list_scope.

(** ** Sample inputs used by the closed instances below *)

Definition sample_item (s : string) : Search.Item :=
  {| Search.identifier := s; Search.userId := None; Search.name := s;
     Search.detail := None; Search.group := false |}.

Definition multi_props : Search.Props :=
  {| Search.disabled := false; Search.existing := ["User:1"];
     Search.single := false; Search.customTrigger := false |}.

Definition single_props : Search.Props :=
  {| Search.disabled := false; Search.existing := ["User:1"];
     Search.single := true; Search.customTrigger := false |}.

Definition disabled_props : Search.Props :=
  {| Search.disabled := true; Search.existing := [];
     Search.single := false; Search.customTrigger := true |}.



Definition opened (l : list Search.Item) : Search.State :=
  {| Search.open := true; Search.staged := l |}.

Definition closed_empty : Search.State :=
  {| Search.open := false; Search.staged := [] |}.

Definition sample_form : Js.obj :=
  {[ "first_name" := Js.Str "Ada"; "last_name" := Js.Str "";
     "exact" := Js.Bool false ]}.

(** A server that rejects every request, and the helpers at simple types. *)
Definition failing_server (ep : Query.Endpoint) (q : Js.obj) : string + unit :=
  inl "503".

Definition sample_handleSubmitError (e : string) : string := "error: " ++ e.

Definition no_users (r : unit) : Query.UserData :=
  {| Query.ud_total := 0; Query.ud_users := [] |}.

Definition no_groups (r : unit) : Query.GroupData :=
  {| Query.gd_total := 0; Query.gd_groups := [] |}.

Definition stale_result : option Query.ResultData :=
  Some {| Query.total := 1; Query.results := [sample_item "User:1"] |}.

Definition sample_heap : Wrapper.heap :=
  {[ 0%nat := {[ "external" := Js.Bool true; "exact" := Js.Bool true ]} ]}.

(** A server that answers every request, with one user and one group. *)
Definition answering_server (ep : Query.Endpoint) (q : Js.obj) : string + unit :=
  inr tt.

Definition one_user (r : unit) : Query.UserData :=
  {| Query.ud_total := 3;
     Query.ud_users :=
       [{| Query.u_identifier := "User:7"; Query.u_id := 7;
           Query.u_fullName := "Ada Lovelace";
           Query.u_email := "ada@example.org";
           Query.u_affiliation := "CERN" |}] |}.

Definition one_group (r : unit) : Query.GroupData :=
  {| Query.gd_total := 1;
     Query.gd_groups :=
       [{| Query.g_identifier := "Group::admins"; Query.g_name := "admins";
           Query.g_providerTitle := None |}] |}.

(** ** The model on sample inputs *)

Example stage_two_then_confirm :
  Search.run Search.initial
    [(multi_props, Search.ClickTrigger);
     (multi_props, Search.ClickResultAdd (sample_item "a"));
     (multi_props, Search.ClickFavorite (sample_item "a"));
     (multi_props, Search.ClickFavorite (sample_item "User:1"));
     (multi_props, Search.ClickResultAdd (sample_item "b"))]
  = opened [sample_item "a"; sample_item "b"].
Proof. reflexivity. Qed.

Example disabled_trigger_stays_closed :
  Search.step disabled_props closed_empty Search.ClickTrigger
  = (closed_empty, []).
Proof. reflexivity. Qed.

Example sample_form_query :
  let q := <["favorites_first" := Js.Bool true]> (Query.truthyEntries sample_form) in
  q !! "first_name" = Some (Js.Str "Ada")
  ∧ q !! "last_name" = None
  ∧ q !! "exact" = None
  ∧ q !! "favorites_first" = Some (Js.Bool true).
Proof. vm_compute. auto. Qed.

Example user_detail_with_affiliation :
  Search.detail
    (Query.userItem {| Query.u_identifier := "User:7"; Query.u_id := 7;
                       Query.u_fullName := "Ada Lovelace";
                       Query.u_email := "ada@example.org";
                       Query.u_affiliation := "CERN" |})
  = Some "ada@example.org (CERN)".
Proof. reflexivity. Qed.

(** ** Handlers, one event at a time *)

Section SearchSteps.
Import Search.

Implicit Types (p : Props) (st : State) (it : Item) (ev : Event).

Lemma confirm_enabled st :
  staged st ≠ [] → bool_decide (length (staged st) = 0%nat) = false.
Proof. destruct (staged st); [done | intros _; by apply bool_decide_eq_false]. Qed.

Lemma confirm_disabled st :
  staged st = [] → bool_decide (length (staged st) = 0%nat) = true.
Proof. intros ->. by apply bool_decide_eq_true. Qed.

(** The handler itself, whatever is staged. *)
Lemma handleAddButtonClick_spec p st :
  commit st (handleAddButtonClick p st) = closed_empty
  ∧ calls (handleAddButtonClick p st) = [OnAddItems (Many (staged st))].
Proof. done. Qed.

Lemma handleClose_spec p st :
  commit st (handleClose p st) = closed_empty
  ∧ calls (handleClose p st) = [OnClose].
Proof. done. Qed.

(** The events that reach [handleAdd], and the others. *)
Lemma effects_of_cases p st ev :
  effects_of p st ev = []
  ∨ effects_of p st ev = handleOpenClick p st ∧ ev = ClickTrigger
  ∨ effects_of p st ev = handleAddButtonClick p st
    ∧ ev = ClickConfirm ∧ single p = false
  ∨ effects_of p st ev = handleClose p st
  ∨ ∃ it, effects_of p st ev = handleAdd p st it
          ∧ (ev = ClickResultAdd it ∨ ev = ClickFavorite it).
Proof.
  unfold effects_of, dispatch, in_modal, render; simpl.
  destruct ev; simpl.
  - destruct (customTrigger p); simpl; [by right; left |].
    unfold click; simpl. destruct (disabled p) eqn:Hd; [by left |].
    by right; left.
  - destruct (open st); [| by left].
    destruct (single p) eqn:Hs; simpl; [by left |].
    unfold click; simpl.
    destruct (bool_decide _); [by left | by right; right; left].
  - destruct (open st); [| by left]. by right; right; right; left.
  - destruct (open st); [| by left]. by right; right; right; left.
  - destruct (open st); simpl; [| by left].
    destruct (isAdded p st r); [by left |].
    right; right; right; right. eauto.
  - destruct (open st); [| by left].
    right; right; right; right. eauto.
Qed.

(** A click on the trigger, by the [disabled] prop. *)
Lemma step_trigger p st :
  step p st ClickTrigger
  = if disabled p then (st, [])
    else ({| open := true; staged := staged st |}, [OnOpen]).
Proof.
  unfold step, effects_of, dispatch, render. simpl.
  unfold click_trigger, click, handleOpenClick.
  destruct (customTrigger p), (disabled p); done.
Qed.

(** [isAdded], read as a proposition. *)
Lemma isAdded_true_iff p st it :
  isAdded p st it = true
  ↔ (identifier it ∈ existing p)
    ∨ (identifier it ∈ identifier <$> staged st).
Proof.
  unfold isAdded. rewrite orb_true_iff, bool_decide_eq_true.
  apply or_iff_compat_l. rewrite existsb_exists, list_elem_of_fmap.
  split.
  - intros (x & Hin & Hx). apply bool_decide_eq_true in Hx.
    exists x. split; [done | by apply list_elem_of_In].
  - intros (x & Hx & Hin). exists x.
    split; [by apply list_elem_of_In | by apply bool_decide_eq_true].
Qed.

Lemma isAdded_false p st it :
  isAdded p st it = false →
  (identifier it ∉ existing p) ∧ (identifier it ∉ identifier <$> staged st).
Proof.
  intros Hf. split; intros Hin;
    (assert (isAdded p st it = true) as Ht
       by (apply isAdded_true_iff; auto)); congruence.
Qed.

(** What the effects of [handleAdd] do to the two cells. *)
Lemma commit_handleAdd p st it :
  commit st (handleAdd p st it)
  = if single p then {| open := false; staged := staged st |}
    else if isAdded p st it then st
    else {| open := open st; staged := staged st ++ [it] |}.
Proof.
  unfold handleAdd. destruct (single p); [done |].
  destruct (isAdded p st it); [done | done].
Qed.

Lemma calls_handleAdd p st it :
  calls (handleAdd p st it)
  = if single p then [OnAddItems (One it)] else [].
Proof.
  unfold handleAdd. destruct (single p); [done |].
  by destruct (isAdded p st it).
Qed.

(** The staged list after any one event: kept, emptied, or extended by an
    item that [isAdded] rejected, the latter in multi-select mode only. *)
Lemma staged_step p st ev :
  staged (step p st ev).1 = staged st
  ∨ staged (step p st ev).1 = []
  ∨ single p = false
    ∧ ∃ it, isAdded p st it = false
            ∧ staged (step p st ev).1 = staged st ++ [it].
Proof.
  unfold step. cbn [fst].
  destruct (effects_of_cases p st ev)
    as [E | [[E _] | [[E _] | [E | (it & E & _)]]]]; rewrite E.
  - by left.
  - left. unfold handleOpenClick. by destruct (disabled p).
  - by right; left.
  - by right; left.
  - rewrite commit_handleAdd.
    destruct (single p) eqn:Hs; [by left |].
    destruct (isAdded p st it) eqn:Ha; [by left |].
    right; right. split; [done |]. by exists it.
Qed.

(** The calls of any one event. *)
Lemma calls_step p st ev :
  (step p st ev).2 = []
  ∨ (step p st ev).2 = [OnOpen]
  ∨ (step p st ev).2 = [OnClose]
  ∨ (step p st ev).2 = [OnAddItems (Many (staged st))]
    ∧ ev = ClickConfirm ∧ single p = false
  ∨ ∃ it, (step p st ev).2 = [OnAddItems (One it)] ∧ single p = true
          ∧ (ev = ClickResultAdd it ∨ ev = ClickFavorite it).
Proof.
  unfold step. cbn [snd].
  destruct (effects_of_cases p st ev)
    as [E | [[E _] | [[E [-> Hs]] | [E | (it & E & Hev)]]]]; rewrite E.
  - by left.
  - unfold handleOpenClick. destruct (disabled p); [by left | by right; left].
  - by right; right; right; left.
  - by right; right; left.
  - rewrite calls_handleAdd. destruct (single p) eqn:Hs; [| by left].
    right; right; right; right. by exists it.
Qed.

(** In a session where every render is in single mode nothing is staged. *)
Lemma single_session_staged_empty evs : ∀ st,
  staged st = [] →
  Forall (λ pe : Props * Event, single pe.1 = true) evs →
  staged (run st evs) = [].
Proof.
  induction evs as [| [p ev] evs IH]; intros st Hst Hall; [done |].
  apply Forall_cons in Hall as [Hp Hall]. cbn [run].
  apply IH; [| done].
  destruct (staged_step p st ev) as [E | [E | [Hs _]]].
  - by rewrite E.
  - done.
  - simpl in Hp. congruence.
Qed.

(** No identifier is staged twice, whatever props each render gets. *)
Lemma staged_NoDup_run evs : ∀ st,
  NoDup (identifier <$> staged st) →
  NoDup (identifier <$> staged (run st evs)).
Proof.
  induction evs as [| [p ev] evs IH]; intros st Hnd; [done |].
  cbn [run]. apply IH.
  destruct (staged_step p st ev) as [E | [E | (_ & it & Ha & E)]]; rewrite E.
  - done.
  - constructor.
  - apply isAdded_false in Ha as [_ Hni].
    rewrite fmap_app. apply NoDup_app. split; [done |]. split.
    + intros x Hx Hx'. apply list_elem_of_singleton in Hx'. by subst.
    + apply NoDup_singleton.
Qed.

(** Nothing staged is among [existing], as long as that prop stays put. *)
Lemma staged_not_existing_run ex evs : ∀ st,
  (∀ x, x ∈ staged st → identifier x ∉ ex) →
  Forall (λ pe : Props * Event, existing pe.1 = ex) evs →
  ∀ x, x ∈ staged (run st evs) → identifier x ∉ ex.
Proof.
  induction evs as [| [p ev] evs IH]; intros st Hst Hall; [done |].
  apply Forall_cons in Hall as [Hp Hall]. cbn [run]. simpl in Hp.
  apply IH; [| done].
  destruct (staged_step p st ev) as [E | [E | (_ & it & Ha & E)]]; rewrite E.
  - done.
  - intros x Hx. by apply not_elem_of_nil in Hx.
  - apply isAdded_false in Ha as [Hne _]. rewrite Hp in Hne.
    intros x Hx. apply elem_of_app in Hx as [Hx | Hx]; [by apply Hst |].
    apply list_elem_of_singleton in Hx. by subst.
Qed.

End SearchSteps.

(** C1, as amended. Confirming returns the staged list when there is one:
    with the modal open in multi-select mode and a non-empty staged list, a
    click on Confirm calls [onAddItems] with the staged array, then resets
    the staged list and closes the modal, in that order. With nothing staged
    the Confirm button is disabled and the click does nothing. The handler
    [handleAddButtonClick] itself, once run, behaves the same way for every
    staged list. *)
Theorem confirm_returns_staged (p : Search.Props) (st : Search.State) :
  Search.single p = false →
  Search.open st = true →
  (Search.staged st ≠ [] →
     Search.effects_of p st Search.ClickConfirm
       = [Search.Ext (Search.OnAddItems (Search.Many (Search.staged st)));
          Search.Upd (Search.SetStaged (Search.Replace []));
          Search.Upd (Search.SetOpen false)]
     ∧ Search.step p st Search.ClickConfirm
       = (closed_empty, [Search.OnAddItems (Search.Many (Search.staged st))]))
  ∧ (Search.staged st = [] → Search.step p st Search.ClickConfirm = (st, []))
  ∧ Search.commit st (Search.handleAddButtonClick p st) = closed_empty
  ∧ Search.calls (Search.handleAddButtonClick p st)
    = [Search.OnAddItems (Search.Many (Search.staged st))].
Proof.
  intros Hs Ho.
  assert (Heff : ∀ b, bool_decide (length (Search.staged st) = 0%nat) = b →
            Search.effects_of p st Search.ClickConfirm
            = if b then [] else Search.handleAddButtonClick p st).
  { intros b Hb.
    unfold Search.effects_of, Search.dispatch, Search.in_modal, Search.render.
    simpl. rewrite Ho, Hs. simpl. unfold Search.click. simpl. by rewrite Hb. }
  split; [| split; [| apply handleAddButtonClick_spec]].
  - intros Hne. pose proof (Heff _ (confirm_enabled st Hne)) as E.
    split; [exact E |]. unfold Search.step. by rewrite E.
  - intros He. pose proof (Heff _ (confirm_disabled st He)) as E.
    unfold Search.step. by rewrite E.
Qed.

Lemma confirm_returns_staged_witness :
  Search.step multi_props (opened [sample_item "a"; sample_item "b"])
    Search.ClickConfirm
  = (closed_empty,
     [Search.OnAddItems (Search.Many [sample_item "a"; sample_item "b"])]).
Proof.
  refine (proj2 (proj1 (confirm_returns_staged multi_props
            (opened [sample_item "a"; sample_item "b"]) eq_refl eq_refl) _)).
  discriminate.
Defined.

(** C1 as written fails for the empty staged list: the Confirm button is
    rendered with [disabled={!staged.length}], so nothing is called and the
    modal stays open. *)
Lemma confirm_not_for_empty_staged :
  ¬ (∀ (p : Search.Props) (st : Search.State),
       Search.single p = false → Search.open st = true →
       Search.step p st Search.ClickConfirm
       = (closed_empty, [Search.OnAddItems (Search.Many (Search.staged st))])).
Proof.
  intros H. specialize (H multi_props (opened []) eq_refl eq_refl).
  vm_compute in H. discriminate H.
Qed.

(** C5, as amended. A click on the trigger (the default button or the
    element built by [triggerFactory]) opens the modal and calls [onOpen]
    while the [disabled] prop is false; the staged list is untouched. While
    [disabled] is true the click changes nothing and calls nothing. *)
Theorem trigger_click_opens (p : Search.Props) (st : Search.State) :
  (Search.disabled p = false →
     Search.step p st Search.ClickTrigger
     = ({| Search.open := true; Search.staged := Search.staged st |},
        [Search.OnOpen]))
  ∧ (Search.disabled p = true →
     Search.step p st Search.ClickTrigger = (st, [])).
Proof.
  rewrite step_trigger. split; intros ->; done.
Qed.

Lemma trigger_click_opens_witness :
  Search.step multi_props closed_empty Search.ClickTrigger
  = (opened [], [Search.OnOpen]).
Proof.
  exact (proj1 (trigger_click_opens multi_props closed_empty) eq_refl).
Defined.

(** C5 as written fails when the component is disabled: [handleOpenClick]
    returns at once, also for a trigger built by [triggerFactory]. *)
Lemma trigger_click_ignored_when_disabled :
  ¬ (∀ (p : Search.Props) (st : Search.State),
       Search.open (Search.step p st Search.ClickTrigger).1 = true
       ∧ Search.OnOpen ∈ (Search.step p st Search.ClickTrigger).2).
Proof.
  intros H. destruct (H disabled_props closed_empty) as [Ho _].
  vm_compute in Ho. discriminate Ho.
Qed.

(** C6. [handleClose] empties the staged list, closes the modal and calls
    only [onClose]; it is what Cancel and the modal's own close run, so
    whatever was staged and not confirmed is gone, and the next opening
    starts from an empty staged list. *)
Theorem close_discards_staged (p : Search.Props) (st : Search.State) :
  Search.commit st (Search.handleClose p st) = closed_empty
  ∧ Search.calls (Search.handleClose p st) = [Search.OnClose]
  ∧ (∀ pl, Search.OnAddItems pl ∉ Search.calls (Search.handleClose p st))
  ∧ (Search.open st = true →
       Search.step p st Search.ClickCancel = (closed_empty, [Search.OnClose])
       ∧ Search.step p st Search.CloseModal = (closed_empty, [Search.OnClose])
       ∧ ∀ q, Search.staged
                (Search.run st [(p, Search.ClickCancel); (q, Search.ClickTrigger)])
              = []).
Proof.
  destruct (handleClose_spec p st) as [Hcommit Hcalls].
  split; [done | split; [done | split]].
  - intros pl Hin. rewrite Hcalls in Hin.
    apply list_elem_of_singleton in Hin. discriminate.
  - intros Ho.
    assert (Hc : Search.step p st Search.ClickCancel
                 = (closed_empty, [Search.OnClose])).
    { unfold Search.step, Search.effects_of, Search.dispatch, Search.in_modal,
        Search.render. simpl. by rewrite Ho. }
    split; [exact Hc | split].
    + unfold Search.step, Search.effects_of, Search.dispatch, Search.in_modal,
        Search.render. simpl. by rewrite Ho.
    + intros q. cbn [Search.run]. rewrite Hc. cbn [fst].
      rewrite step_trigger. by destruct (Search.disabled q).
Qed.

Lemma close_discards_staged_witness :
  Search.step multi_props (opened [sample_item "a"]) Search.ClickCancel
  = (closed_empty, [Search.OnClose]).
Proof.
  exact (proj1 (proj2 (proj2 (proj2
    (close_discards_staged multi_props (opened [sample_item "a"])))) eq_refl)).
Defined.




(** C3. In multi-select mode [handleAdd] calls nothing outside the component
    and leaves [open] alone: all it can change is the staged list. Over all
    events, [onAddItems] is called only by Confirm (multi-select mode, with
    the staged array) or by an add in single mode (with that item). *)
Theorem staging_is_local (p : Search.Props) (st : Search.State) :
  (Search.single p = false →
   ∀ it, Search.calls (Search.handleAdd p st it) = []
         ∧ Search.open (Search.commit st (Search.handleAdd p st it))
           = Search.open st
         ∧ (Search.step p st (Search.ClickFavorite it)).2 = []
         ∧ (Search.step p st (Search.ClickResultAdd it)).2 = [])
  ∧ (∀ ev pl,
       Search.OnAddItems pl ∈ (Search.step p st ev).2 →
       ev = Search.ClickConfirm ∧ Search.single p = false
         ∧ pl = Search.Many (Search.staged st)
       ∨ Search.single p = true
         ∧ ∃ it, (ev = Search.ClickResultAdd it ∨ ev = Search.ClickFavorite it)
                 ∧ pl = Search.One it).
Proof.
  split.
  - intros Hs it. rewrite calls_handleAdd, commit_handleAdd, Hs.
    split; [done |]. split; [by destruct (Search.isAdded p st it) |].
    split.
    + unfold Search.step, Search.effects_of, Search.dispatch,
        Search.in_modal, Search.render. simpl.
      destruct (Search.open st); simpl; [| done].
      by rewrite calls_handleAdd, Hs.
    + unfold Search.step, Search.effects_of, Search.dispatch,
        Search.in_modal, Search.render. simpl.
      destruct (Search.open st); simpl; [| done].
      destruct (Search.isAdded p st it); [done |].
      by rewrite calls_handleAdd, Hs.
  - intros ev pl Hin.
    destruct (calls_step p st ev)
      as [E | [E | [E | [(E & Hev & Hs) | (it & E & Hs & Hev)]]]];
      rewrite E in Hin.
    + by apply not_elem_of_nil in Hin.
    + apply list_elem_of_singleton in Hin. discriminate.
    + apply list_elem_of_singleton in Hin. discriminate.
    + apply list_elem_of_singleton in Hin. left. by simplify_eq.
    + apply list_elem_of_singleton in Hin. right. split; [done |].
      exists it. by simplify_eq.
Qed.

Lemma staging_is_local_witness :
  Search.calls (Search.handleAdd multi_props (opened []) (sample_item "a")) = [].
Proof.
  exact (proj1 (proj1 (staging_is_local multi_props (opened [])) eq_refl
                  (sample_item "a"))).
Defined.

(** C8. In single mode [handleAdd] calls [onAddItems] with the item itself
    and then closes the modal, for every item: [isAdded] is not looked at, so
    an item of [existing] picked among the favourites is handed over again
    (a result row offers the add icon only when [isAdded] is false). The
    staged list is left as it was, and stays empty throughout a single-mode
    session. *)
Theorem single_mode_add_is_immediate (p : Search.Props) (st : Search.State)
    (it : Search.Item) :
  Search.single p = true →
  Search.handleAdd p st it
    = [Search.Ext (Search.OnAddItems (Search.One it));
       Search.Upd (Search.SetOpen false)]
  ∧ Search.calls (Search.handleAdd p st it) = [Search.OnAddItems (Search.One it)]
  ∧ Search.commit st (Search.handleAdd p st it)
    = {| Search.open := false; Search.staged := Search.staged st |}
  ∧ (Search.open st = true →
     Search.step p st (Search.ClickFavorite it)
     = ({| Search.open := false; Search.staged := Search.staged st |},
        [Search.OnAddItems (Search.One it)]))
  ∧ (Search.open st = true → Search.isAdded p st it = false →
     Search.step p st (Search.ClickResultAdd it)
     = ({| Search.open := false; Search.staged := Search.staged st |},
        [Search.OnAddItems (Search.One it)]))
  ∧ (∀ evs,
       Forall (λ pe : Search.Props * Search.Event, Search.single pe.1 = true) evs →
       Search.staged (Search.run Search.initial evs) = []).
Proof.
  intros Hs.
  assert (Hh : Search.handleAdd p st it
               = [Search.Ext (Search.OnAddItems (Search.One it));
                  Search.Upd (Search.SetOpen false)])
    by (unfold Search.handleAdd; by rewrite Hs).
  split; [done |]. split; [by rewrite Hh |]. split; [by rewrite Hh |].
  split; [| split].
  - intros Ho. unfold Search.step, Search.effects_of, Search.dispatch,
      Search.in_modal, Search.render. simpl. rewrite Ho. simpl. by rewrite Hh.
  - intros Ho Ha. unfold Search.step, Search.effects_of, Search.dispatch,
      Search.in_modal, Search.render. simpl. rewrite Ho. simpl.
    rewrite Ha. by rewrite Hh.
  - intros evs Hall. by apply single_session_staged_empty.
Qed.

Lemma single_mode_add_is_immediate_witness :
  Search.isAdded single_props (opened []) (sample_item "User:1") = true
  ∧ Search.step single_props (opened []) (Search.ClickFavorite (sample_item "User:1"))
    = (closed_empty, [Search.OnAddItems (Search.One (sample_item "User:1"))]).
Proof.
  split; [reflexivity |].
  exact (proj1 (proj2 (proj2 (proj2
    (single_mode_add_is_immediate single_props (opened [])
       (sample_item "User:1") eq_refl)))) eq_refl).
Defined.

(** ** Search requests *)

Section QueryFacts.
Import Js Query.

Lemma truthyEntries_filter (data : obj) :
  truthyEntries data = filter (λ kv, truthy kv.2) data.
Proof. unfold truthyEntries, fromPairs, entries. symmetry. apply map_filter_alt. Qed.

(** The entries kept are those of [data] with a truthy value. *)
Lemma truthyEntries_lookup (data : obj) k v :
  truthyEntries data !! k = Some v ↔ data !! k = Some v ∧ truthy v = true.
Proof.
  rewrite truthyEntries_filter, map_lookup_filter_Some. simpl.
  by rewrite Is_true_true.
Qed.

End QueryFacts.

(** C4. Whatever the form submits, the user search issues exactly one GET, on
    the user search URL, after resetting the result; its query holds
    [favorites_first = true] and, for every other key, the entry of the form
    values when that value is truthy and nothing otherwise. The group search
    does the same on the group search URL with the truthy entries alone. *)
Theorem search_query_is_truthy_entries {Error SubmitErrors Response : Type}
    (handleSubmitError : Error → SubmitErrors)
    (camelizeUsers : Response → Query.UserData)
    (camelizeGroups : Response → Query.GroupData)
    (server : Query.Endpoint → Js.obj → Error + Response)
    (data : Js.obj) (r0 : option Query.ResultData) :
  (∃ q rest,
     Query.trace (Query.exec server
                    (Query.userRunSearch handleSubmitError camelizeUsers data) r0)
     = Query.DidSetResult None :: Query.DidGet Query.userSearchURL q :: rest
     ∧ (∀ ep q', Query.DidGet ep q' ∉ rest)
     ∧ q !! "favorites_first" = Some (Js.Bool true)
     ∧ ∀ k v, k ≠ "favorites_first" →
         (q !! k = Some v ↔ data !! k = Some v ∧ Js.truthy v = true))
  ∧ (∃ q rest,
     Query.trace (Query.exec server
                    (Query.groupRunSearch handleSubmitError camelizeGroups data) r0)
     = Query.DidSetResult None :: Query.DidGet Query.groupSearchURL q :: rest
     ∧ (∀ ep q', Query.DidGet ep q' ∉ rest)
     ∧ ∀ k v, q !! k = Some v ↔ data !! k = Some v ∧ Js.truthy v = true).
Proof.
  split.
  - eexists _, _. split; [reflexivity |]. split; [| split].
    + intros ep q' Hin. simpl in Hin.
      destruct (server _ _); simpl in Hin.
      * by apply not_elem_of_nil in Hin.
      * apply list_elem_of_singleton in Hin. discriminate.
    + apply lookup_insert_eq.
    + intros k v Hk. rewrite lookup_insert_ne by done.
      apply truthyEntries_lookup.
  - eexists _, _. split; [reflexivity |]. split.
    + intros ep q' Hin. simpl in Hin.
      destruct (server _ _); simpl in Hin.
      * by apply not_elem_of_nil in Hin.
      * apply list_elem_of_singleton in Hin. discriminate.
    + intros k v. apply truthyEntries_lookup.
Qed.

(** C9. [runSearch] resets the result before the GET; when the request is
    rejected, nothing else happens: the run consists of that reset and the
    GET, it returns what [handleSubmitError] makes of the error, and the
    result shown afterwards is null whatever was shown before. This holds for
    the user search and for the group search. *)
Theorem failed_search_shows_nothing {Error SubmitErrors Response : Type}
    (handleSubmitError : Error → SubmitErrors)
    (camelizeUsers : Response → Query.UserData)
    (camelizeGroups : Response → Query.GroupData)
    (server : Query.Endpoint → Js.obj → Error + Response)
    (data : Js.obj) (r0 : option Query.ResultData) (error : Error) :
  (server Query.userSearchURL
     (<["favorites_first" := Js.Bool true]> (Query.truthyEntries data))
   = inl error →
   Query.exec server (Query.userRunSearch handleSubmitError camelizeUsers data) r0
   = {| Query.trace :=
          [Query.DidSetResult None;
           Query.DidGet Query.userSearchURL
             (<["favorites_first" := Js.Bool true]> (Query.truthyEntries data))];
        Query.shown := None;
        Query.returned := Some (handleSubmitError error) |})
  ∧ (server Query.groupSearchURL (Query.truthyEntries data) = inl error →
     Query.exec server (Query.groupRunSearch handleSubmitError camelizeGroups data) r0
     = {| Query.trace :=
            [Query.DidSetResult None;
             Query.DidGet Query.groupSearchURL (Query.truthyEntries data)];
          Query.shown := None;
          Query.returned := Some (handleSubmitError error) |}).
Proof.
  split; intros Hfail; simpl; by rewrite Hfail.
Qed.

Lemma failed_search_shows_nothing_witness :
  Query.shown (Query.exec failing_server
    (Query.userRunSearch sample_handleSubmitError no_users sample_form)
    stale_result) = None
  ∧ Query.returned (Query.exec failing_server
    (Query.userRunSearch sample_handleSubmitError no_users sample_form)
    stale_result) = Some "error: 503".
Proof.
  pose proof (proj1 (failed_search_shows_nothing sample_handleSubmitError
    no_users no_groups failing_server sample_form stale_result "503") eq_refl)
    as H.
  rewrite H. split; reflexivity.
Defined.

(** C10. [validateForm] of the user search returns the form-wide error
    'No criteria specified' exactly when [first_name], [last_name], [email]
    and [affiliation] are all falsy (missing or empty), and returns
    undefined exactly when at least one of them is truthy. *)
Theorem validateForm_rejects_empty (values : Js.obj) :
  (Query.validateForm values
     = Some {[ Query.FORM_ERROR := Js.Str "No criteria specified" ]}
   ↔ Js.truthy (Js.get values "first_name") = false
     ∧ Js.truthy (Js.get values "last_name") = false
     ∧ Js.truthy (Js.get values "email") = false
     ∧ Js.truthy (Js.get values "affiliation") = false)
  ∧ (Query.validateForm values = None
     ↔ Js.truthy (Js.get values "first_name") = true
       ∨ Js.truthy (Js.get values "last_name") = true
       ∨ Js.truthy (Js.get values "email") = true
       ∨ Js.truthy (Js.get values "affiliation") = true).
Proof.
  unfold Query.validateForm.
  destruct (Js.truthy (Js.get values "first_name")),
           (Js.truthy (Js.get values "last_name")),
           (Js.truthy (Js.get values "email")),
           (Js.truthy (Js.get values "affiliation")); simpl;
    (split; split; intros H; try reflexivity; try discriminate H;
     try (repeat split; reflexivity);
     try (destruct H as (? & ? & ? & ?); discriminate);
     try (destruct H as [? | [? | [? | ?]]]; discriminate);
     auto 6).
Qed.

Lemma validateForm_rejects_empty_witness :
  Query.validateForm {[ "first_name" := Js.Str ""; "exact" := Js.Bool true ]}
  = Some {[ Query.FORM_ERROR := Js.Str "No criteria specified" ]}.
Proof.
  apply (proj2 (proj1 (validateForm_rejects_empty
    {[ "first_name" := Js.Str ""; "exact" := Js.Bool true ]}))).
  repeat split; reflexivity.
Defined.

(** ** The wrapper and the caller's object *)

(** C7, as amended. The wrapper provides the caller's own object (the same
    reference) as the form's initial values and touches no other object.
    With [withExternalUsers] true, or when the object has no [external] key,
    the form gets exactly the caller's values and the object is left as it
    is. With [withExternalUsers] false the form gets the caller's values
    without the key [external], every other key unchanged. *)
Theorem wrapper_provides_values (withExternalUsers : bool) (l : nat)
    (h : Wrapper.heap) (o : Js.obj) :
  h !! l = Some o →
  Wrapper.InitialFormValuesContext (Wrapper.UserSearch withExternalUsers l h).2 = l
  ∧ Wrapper.WithExternalsContext (Wrapper.UserSearch withExternalUsers l h).2
    = withExternalUsers
  ∧ (∀ l', l' ≠ l → (Wrapper.UserSearch withExternalUsers l h).1 !! l' = h !! l')
  ∧ (withExternalUsers = true ∨ o !! "external" = None →
     (Wrapper.UserSearch withExternalUsers l h).1 = h
     ∧ Wrapper.initialValues (Wrapper.UserSearch withExternalUsers l h).1
         (Wrapper.UserSearch withExternalUsers l h).2 = Some o)
  ∧ (withExternalUsers = false →
     ∃ o', Wrapper.initialValues (Wrapper.UserSearch withExternalUsers l h).1
             (Wrapper.UserSearch withExternalUsers l h).2 = Some o'
           ∧ o' !! "external" = None
           ∧ ∀ k, k ≠ "external" → o' !! k = o !! k).
Proof.
  intros Hl. unfold Wrapper.UserSearch, Wrapper.initialValues. simpl.
  split; [done |]. split; [done |]. split; [| split].
  - intros l' Hne. destruct withExternalUsers; simpl; [done |].
    by rewrite lookup_alter_ne.
  - intros [-> | Hno]; simpl; [done |].
    assert (alter (delete "external") l h = h) as Hid.
    { apply alter_id. intros x Hx. rewrite Hl in Hx.
      injection Hx as <-. by apply delete_id. }
    destruct withExternalUsers; simpl; [done |]. by rewrite Hid.
  - intros ->. simpl. rewrite lookup_alter_eq, Hl. simpl.
    exists (delete "external" o).
    split; [done |]. split; [apply lookup_delete_eq |].
    intros k Hk. by apply lookup_delete_ne.
Qed.

Lemma wrapper_provides_values_witness :
  (Wrapper.UserSearch true 0%nat sample_heap).1 = sample_heap
  ∧ Wrapper.initialValues (Wrapper.UserSearch true 0%nat sample_heap).1
      (Wrapper.UserSearch true 0%nat sample_heap).2
    = Some {[ "external" := Js.Bool true; "exact" := Js.Bool true ]}.
Proof.
  refine (proj1 (proj2 (proj2 (proj2
    (wrapper_provides_values true 0%nat sample_heap
       {[ "external" := Js.Bool true; "exact" := Js.Bool true ]} eq_refl)))) _).
  by left.
Defined.

(** C7 as written fails when [withExternalUsers] is false and the caller's
    object has an [external] entry: the entry is deleted from that very
    object, which is what the form then receives. *)
Lemma wrapper_deletes_external :
  ¬ (∀ (withExternalUsers : bool) (l : nat) (h : Wrapper.heap) (o : Js.obj),
       h !! l = Some o →
       Wrapper.initialValues (Wrapper.UserSearch withExternalUsers l h).1
         (Wrapper.UserSearch withExternalUsers l h).2 = Some o
       ∧ (Wrapper.UserSearch withExternalUsers l h).1 !! l = Some o).
Proof.
  intros H.
  destruct (H false 0%nat sample_heap
              {[ "external" := Js.Bool true; "exact" := Js.Bool true ]} eq_refl)
    as [_ Hsame].
  assert ((Wrapper.UserSearch false 0%nat sample_heap).1 !! 0%nat
          ≫= (.!! "external") = Some (Js.Bool true)) as Hext
    by (by rewrite Hsame).
  vm_compute in Hext. discriminate Hext.
Qed.

(** ** Sessions *)

Section SessionFacts.
Import Search Session.

Implicit Types (p : Props) (st : State) (it : Item) (ev : Event).

(** Every event, spelled out. *)
Lemma step_eq p st ev :
  step p st ev
  = match ev with
    | ClickTrigger =>
        if disabled p then (st, [])
        else ({| open := true; staged := staged st |}, [OnOpen])
    | ClickConfirm =>
        if open st then
          if single p then (st, [])
          else if bool_decide (length (staged st) = 0%nat) then (st, [])
          else (closed_empty, [OnAddItems (Many (staged st))])
        else (st, [])
    | ClickCancel | CloseModal =>
        if open st then (closed_empty, [OnClose]) else (st, [])
    | ClickResultAdd r =>
        if open st then
          if isAdded p st r then (st, []) else add_outcome p st r
        else (st, [])
    | ClickFavorite x =>
        if open st then add_outcome p st x else (st, [])
    end.
Proof.
  destruct ev; [apply step_trigger | ..];
    unfold step, effects_of, dispatch, in_modal, render, add_outcome; simpl;
    destruct (open st) eqn:Ho; simpl; try done.
  - destruct (single p); simpl; [done |]. unfold click; simpl.
    by destruct (bool_decide _).
  - destruct (isAdded p st r) eqn:Ha; [done |].
    rewrite commit_handleAdd, calls_handleAdd, Ha, Ho. by destruct (single p).
  - rewrite commit_handleAdd, calls_handleAdd, Ho.
    destruct (single p); [done |]. by destruct (isAdded p st x).
Qed.

Lemma run_app st evs1 evs2 :
  run st (evs1 ++ evs2) = run (run st evs1) evs2.
Proof.
  revert st. induction evs1 as [| [p ev] evs1 IH]; intros st; [done |].
  simpl. apply IH.
Qed.

Lemma run_calls_app st evs1 evs2 :
  run_calls st (evs1 ++ evs2)
  = run_calls st evs1 ++ run_calls (run st evs1) evs2.
Proof.
  revert st. induction evs1 as [| [p ev] evs1 IH]; intros st; [done |].
  cbn [run_calls run app]. rewrite IH. by rewrite app_assoc.
Qed.

(** While the modal is closed only the trigger does anything. *)
Lemma step_closed p st ev :
  open st = false → ev ≠ ClickTrigger → step p st ev = (st, []).
Proof.
  intros Ho Hev. rewrite step_eq. destruct ev; try done; by rewrite Ho.
Qed.

(** A staged array reaches the page only through an enabled Confirm. *)
Lemma step_calls_Many p st ev l :
  OnAddItems (Many l) ∈ (step p st ev).2 →
  l = staged st ∧ l ≠ [] ∧ open st = true ∧ single p = false
  ∧ ev = ClickConfirm ∧ (step p st ev).1 = closed_empty.
Proof.
  rewrite step_eq. unfold add_outcome.
  destruct ev, (open st), (disabled p), (single p); simpl;
    try (destruct (isAdded p st _)); simpl;
    try (intros Hin; apply not_elem_of_nil in Hin; done);
    try (intros Hin; apply list_elem_of_singleton in Hin; discriminate).
  all: destruct (staged st) as [| x l'] eqn:Hst; simpl;
    [intros Hin; by apply not_elem_of_nil in Hin |].
  all: intros Hin; apply list_elem_of_singleton in Hin; by simplify_eq.
Qed.

(** [closed_clean] is kept by every event. *)
Lemma closed_clean_step s p st ev :
  single p = s → closed_clean s st → closed_clean s (step p st ev).1.
Proof.
  intros Hs [Hc Hsg]. rewrite step_eq. unfold add_outcome, closed_clean.
  destruct ev, (open st) eqn:Ho, (disabled p), (single p) eqn:Hp; simpl;
    try (destruct (isAdded p st _)); try (destruct (bool_decide _));
    simpl; subst s; rewrite ?Ho; try (split; by auto).
Qed.

Lemma closed_clean_run s evs : ∀ st,
  closed_clean s st →
  Forall (λ pe : Props * Event, single pe.1 = s) evs →
  closed_clean s (run st evs).
Proof.
  induction evs as [| [p ev] evs IH]; intros st Hinv Hall; [done |].
  apply Forall_cons in Hall as [Hp Hall]. cbn [run].
  apply IH; [| done]. by apply closed_clean_step.
Qed.

(** A closed, disabled component does nothing at all. *)
Lemma disabled_run evs : ∀ st,
  open st = false →
  Forall (λ pe : Props * Event, disabled pe.1 = true) evs →
  run st evs = st ∧ run_calls st evs = [].
Proof.
  induction evs as [| [p ev] evs IH]; intros st Ho Hall; [done |].
  apply Forall_cons in Hall as [Hp Hall]. simpl in Hp.
  assert (step p st ev = (st, [])) as E.
  { destruct ev; [by rewrite step_trigger, Hp | by apply step_closed ..]. }
  cbn [run run_calls]. rewrite E. simpl. by apply IH.
Qed.

(** Staging fresh items one after the other. *)
Lemma run_add_events p via its : ∀ l0,
  single p = false →
  (∀ it, via it = ClickResultAdd it ∨ via it = ClickFavorite it) →
  NoDup (identifier <$> (l0 ++ its)) →
  (∀ it, it ∈ its → identifier it ∉ existing p) →
  run (opened l0) (add_events p via its) = opened (l0 ++ its)
  ∧ run_calls (opened l0) (add_events p via its) = [].
Proof.
  induction its as [| it its IH]; intros l0 Hs Hvia Hnd Hex.
  - by rewrite app_nil_r.
  - assert (isAdded p (opened l0) it = false) as Ha.
    { destruct (isAdded p (opened l0) it) eqn:E; [| done].
      apply isAdded_true_iff in E as [E | E].
      - exfalso. by apply (Hex it); [apply list_elem_of_here |].
      - exfalso. simpl in E. rewrite fmap_app, fmap_cons in Hnd.
        apply NoDup_app in Hnd as (_ & Hdis & _).
        apply (Hdis _ E). apply list_elem_of_here. }
    assert (step p (opened l0) (via it) = (opened (l0 ++ [it]), [])) as E.
    { rewrite step_eq. unfold add_outcome.
      destruct (Hvia it) as [-> | ->]; simpl; by rewrite Ha, Hs. }
    unfold add_events. rewrite fmap_cons. cbn [run run_calls]. rewrite E.
    simpl. specialize (IH (l0 ++ [it]) Hs Hvia).
    rewrite <- (assoc_L (++)) in IH. simpl in IH. apply IH; [done |].
    intros x Hx. apply Hex. by apply list_elem_of_further.
Qed.

(** The payload of a Confirm, wherever it occurs in a session. *)
Lemma run_calls_Many ex evs : ∀ st l,
  NoDup (identifier <$> staged st) →
  (∀ x, x ∈ staged st → identifier x ∉ ex) →
  Forall (λ pe : Props * Event, existing pe.1 = ex) evs →
  OnAddItems (Many l) ∈ run_calls st evs →
  l ≠ [] ∧ NoDup (identifier <$> l) ∧ ∀ x, x ∈ l → identifier x ∉ ex.
Proof.
  induction evs as [| [p ev] evs IH]; intros st l Hnd Hex Hall Hin.
  - by apply not_elem_of_nil in Hin.
  - pose proof Hall as Hall1.
    apply Forall_cons in Hall as [Hp Hall]. cbn [run_calls] in Hin.
    apply elem_of_app in Hin as [Hin | Hin].
    + apply step_calls_Many in Hin as (-> & Hne & _). done.
    + apply (IH (step p st ev).1); [| | done | done].
      * apply (staged_NoDup_run [(p, ev)] st Hnd).
      * apply (staged_not_existing_run ex [(p, ev)] st Hex).
        by apply Forall_singleton.
Qed.

End SessionFacts.

Example single_flip_leaves_staged :
  Search.run Search.initial
    [(multi_props, Search.ClickTrigger);
     (multi_props, Search.ClickResultAdd (sample_item "a"));
     (single_props, Search.ClickFavorite (sample_item "b"))]
  = {| Search.open := false; Search.staged := [sample_item "a"] |}.
Proof. reflexivity. Qed.

(** X1. In a session whose renders all get the same [single], whenever the
    modal is closed nothing is staged: whichever way the dialog was closed
    (Cancel, the modal's close, Confirm, an add in single mode), the next
    opening starts from an empty selection. *)
Theorem nothing_staged_while_closed (s : bool)
    (evs : list (Search.Props * Search.Event)) :
  Forall (λ pe : Search.Props * Search.Event, Search.single pe.1 = s) evs →
  Search.open (Search.run Search.initial evs) = false →
  Search.staged (Search.run Search.initial evs) = [].
Proof.
  intros Hall Hclosed.
  destruct (closed_clean_run s evs Search.initial) as [Hc _]; [| done | auto].
  by split.
Qed.

Lemma nothing_staged_while_closed_witness :
  Search.staged
    (Search.run Search.initial
       [(multi_props, Search.ClickTrigger);
        (multi_props, Search.ClickResultAdd (sample_item "a"));
        (multi_props, Search.CloseModal)]) = [].
Proof.
  apply (nothing_staged_while_closed false); [| reflexivity].
  repeat constructor.
Defined.

(** X2. Whatever the session, an array that Confirm hands to [onAddItems]
    is never empty, holds no identifier twice and holds none of [existing]
    (for a session whose renders all get the same [existing]). *)
Theorem confirmed_selection_is_clean (ex : list string)
    (evs : list (Search.Props * Search.Event)) (l : list Search.Item) :
  Forall (λ pe : Search.Props * Search.Event, Search.existing pe.1 = ex) evs →
  Search.OnAddItems (Search.Many l) ∈ Session.run_calls Search.initial evs →
  l ≠ []
  ∧ NoDup (Search.identifier <$> l)
  ∧ ∀ x, x ∈ l → Search.identifier x ∉ ex.
Proof.
  intros Hall Hin.
  apply (run_calls_Many ex evs Search.initial l); [constructor | | done | done].
  intros x Hx. by apply not_elem_of_nil in Hx.
Qed.

Lemma confirmed_selection_is_clean_witness :
  NoDup (Search.identifier <$> [sample_item "a"; sample_item "b"]).
Proof.
  refine (proj1 (proj2 (confirmed_selection_is_clean ["User:1"]
    [(multi_props, Search.ClickTrigger);
     (multi_props, Search.ClickResultAdd (sample_item "a"));
     (multi_props, Search.ClickFavorite (sample_item "a"));
     (multi_props, Search.ClickFavorite (sample_item "User:1"));
     (multi_props, Search.ClickResultAdd (sample_item "b"));
     (multi_props, Search.ClickConfirm)]
    [sample_item "a"; sample_item "b"] _ _))).
  - repeat constructor.
  - vm_compute. repeat constructor.
Defined.

(** X3. While the modal is closed, the only thing an event can do is open
    it. Every event either changes nothing and calls nothing, or is a click
    on the trigger of a component that is not disabled, which opens the
    modal and calls [onOpen] and nothing else. Either way the staged list is
    left untouched, and any call made is that [onOpen]. *)
Theorem closed_modal_only_opens (p : Search.Props) (st : Search.State)
    (ev : Search.Event) :
  Search.open st = false →
  (Search.step p st ev = (st, [])
   ∨ ev = Search.ClickTrigger ∧ Search.disabled p = false
     ∧ Search.step p st ev
       = ({| Search.open := true; Search.staged := Search.staged st |},
          [Search.OnOpen]))
  ∧ Search.staged (Search.step p st ev).1 = Search.staged st
  ∧ (∀ c, c ∈ (Search.step p st ev).2 →
          c = Search.OnOpen ∧ ev = Search.ClickTrigger
          ∧ Search.disabled p = false).
Proof.
  intros Ho.
  assert (Search.step p st ev = (st, [])
          ∨ ev = Search.ClickTrigger ∧ Search.disabled p = false
            ∧ Search.step p st ev
              = ({| Search.open := true; Search.staged := Search.staged st |},
                 [Search.OnOpen])) as Hcases.
  { destruct ev; [| by left; apply step_closed ..].
    rewrite step_trigger. destruct (Search.disabled p); [by left | by right]. }
  split; [exact Hcases |].
  destruct Hcases as [E | (Hev & Hd & E)]; rewrite E; simpl.
  - split; [done |]. intros c Hin. by apply not_elem_of_nil in Hin.
  - split; [done |]. intros c Hin.
    apply list_elem_of_singleton in Hin. by subst.
Qed.

Lemma closed_modal_only_opens_witness :
  Search.step multi_props closed_empty (Search.ClickFavorite (sample_item "a"))
  = (closed_empty, [])
  ∧ Search.staged (Search.step multi_props closed_empty Search.ClickTrigger).1
    = [].
Proof.
  split.
  - destruct (proj1 (closed_modal_only_opens multi_props closed_empty
        (Search.ClickFavorite (sample_item "a")) eq_refl))
      as [E | (Hev & _)]; [exact E | discriminate Hev].
  - exact (proj1 (proj2 (closed_modal_only_opens multi_props closed_empty
        Search.ClickTrigger eq_refl))).
Defined.

(** X4. A component that is disabled at every render is inert: from the
    initial state no sequence of events changes its state or makes it call
    [onOpen], [onClose] or [onAddItems]. *)
Theorem disabled_widget_is_inert (evs : list (Search.Props * Search.Event)) :
  Forall (λ pe : Search.Props * Search.Event, Search.disabled pe.1 = true) evs →
  Search.run Search.initial evs = Search.initial
  ∧ Session.run_calls Search.initial evs = [].
Proof. intros Hall. by apply disabled_run. Qed.

Lemma disabled_widget_is_inert_witness :
  Search.run Search.initial
    [(disabled_props, Search.ClickTrigger);
     (disabled_props, Search.ClickFavorite (sample_item "a"));
     (disabled_props, Search.ClickConfirm)] = Search.initial.
Proof.
  refine (proj1 (disabled_widget_is_inert _ _)). repeat constructor.
Defined.

(** X5. Staging and confirming gives back what was picked: opening the
    dialog (multi-select, not disabled), adding items with pairwise
    different identifiers none of which is in [existing], each through a
    result row or the favourites dropdown, and clicking Confirm makes exactly
    two calls, [onOpen] and then [onAddItems] with those items in the order
    they were added, and leaves the dialog closed with nothing staged. *)
Theorem stage_then_confirm_round_trip (p : Search.Props)
    (via : Search.Item → Search.Event) (its : list Search.Item) :
  Search.disabled p = false →
  Search.single p = false →
  (∀ it, via it = Search.ClickResultAdd it ∨ via it = Search.ClickFavorite it) →
  NoDup (Search.identifier <$> its) →
  (∀ it, it ∈ its → Search.identifier it ∉ Search.existing p) →
  its ≠ [] →
  Search.run Search.initial
    ((p, Search.ClickTrigger)
       :: Session.add_events p via its ++ [(p, Search.ClickConfirm)])
  = closed_empty
  ∧ Session.run_calls Search.initial
      ((p, Search.ClickTrigger)
         :: Session.add_events p via its ++ [(p, Search.ClickConfirm)])
    = [Search.OnOpen; Search.OnAddItems (Search.Many its)].
Proof.
  intros Hd Hs Hvia Hnd Hex Hne.
  destruct (run_add_events p via its [] Hs Hvia Hnd Hex) as [Hrun Hcalls].
  assert (Search.step p (opened its) Search.ClickConfirm
          = (closed_empty, [Search.OnAddItems (Search.Many its)])) as Hconfirm.
  { rewrite step_eq. simpl. rewrite Hs.
    destruct its; [done |]. by rewrite bool_decide_eq_false_2. }
  cbn [app] in Hrun.
  cbn [Search.run Session.run_calls]. rewrite step_trigger, Hd. cbn [fst snd].
  change {| Search.open := true; Search.staged := Search.staged Search.initial |}
    with (opened []).
  rewrite run_app, run_calls_app, Hrun, Hcalls.
  cbn [app Search.run Session.run_calls]. by rewrite Hconfirm.
Qed.

Lemma stage_then_confirm_round_trip_witness :
  Session.run_calls Search.initial
    ((multi_props, Search.ClickTrigger)
       :: Session.add_events multi_props Search.ClickResultAdd
            [sample_item "b"; sample_item "a"]
       ++ [(multi_props, Search.ClickConfirm)])
  = [Search.OnOpen;
     Search.OnAddItems (Search.Many [sample_item "b"; sample_item "a"])].
Proof.
  refine (proj2 (stage_then_confirm_round_trip multi_props Search.ClickResultAdd
    [sample_item "b"; sample_item "a"] eq_refl eq_refl _ _ _ _)).
  - intros it. by left.
  - apply (bool_decide_unpack _). vm_compute. exact I.
  - intros it Hit Hex. simpl in Hex. apply list_elem_of_singleton in Hex.
    apply elem_of_cons in Hit as [-> | Hit]; [discriminate Hex |].
    apply list_elem_of_singleton in Hit. subst it. discriminate Hex.
  - discriminate.
Defined.

(** X6. Handing a selection over always closes the dialog: after any event
    that calls [onAddItems] the modal is closed, and in multi-select mode
    the staged list is empty again. *)
Theorem handing_over_closes (p : Search.Props) (st : Search.State)
    (ev : Search.Event) (pl : Search.Payload) :
  Search.OnAddItems pl ∈ (Search.step p st ev).2 →
  Search.open (Search.step p st ev).1 = false
  ∧ (Search.single p = false → Search.staged (Search.step p st ev).1 = []).
Proof.
  rewrite step_eq. unfold Session.add_outcome.
  destruct ev, (Search.open st), (Search.disabled p), (Search.single p); simpl;
    try (destruct (Search.isAdded p st _)); try (destruct (bool_decide _));
    simpl;
    try (intros Hin; apply not_elem_of_nil in Hin; done);
    try (intros Hin; apply list_elem_of_singleton in Hin; discriminate);
    intros _; split; done.
Qed.

Lemma handing_over_closes_witness :
  Search.open (Search.step single_props (opened [])
                 (Search.ClickFavorite (sample_item "User:1"))).1 = false.
Proof.
  refine (proj1 (handing_over_closes single_props (opened [])
    (Search.ClickFavorite (sample_item "User:1"))
    (Search.One (sample_item "User:1")) _)).
  vm_compute. repeat constructor.
Defined.


(** ** What is shown *)

Section DisplayFacts.
Import Search Display.

Implicit Types (x y : Item) (l : list Item).

Lemma insert_by_name_perm x l : insert_by_name x l ≡ₚ x :: l.
Proof.
  induction l as [| y l IH]; [done |]. simpl.
  destruct (String.leb (name x) (name y)); [done |].
  rewrite IH. apply Permutation_swap.
Qed.

Lemma sortBy_name_perm l : sortBy_name l ≡ₚ l.
Proof.
  induction l as [| x l IH]; [done |]. simpl.
  rewrite insert_by_name_perm. by rewrite IH.
Qed.

Lemma insert_by_name_HdRel x y l :
  name_le y x → HdRel name_le y l → HdRel name_le y (insert_by_name x l).
Proof.
  intros Hyx Hhd. destruct l as [| z l]; simpl; [by constructor |].
  destruct (String.leb (name x) (name z)); constructor; [done |].
  by inversion Hhd.
Qed.

Lemma insert_by_name_sorted x l :
  Sorted name_le l → Sorted name_le (insert_by_name x l).
Proof.
  induction l as [| y l IH]; intros Hs; simpl.
  - by repeat constructor.
  - destruct (String.leb (name x) (name y)) eqn:Hxy.
    + constructor; [done |]. by constructor.
    + inversion Hs as [| ? ? Hs' Hhd]; subst. constructor; [by apply IH |].
      apply insert_by_name_HdRel; [| done].
      destruct (String.leb_total (name x) (name y)) as [H | H];
        [congruence | done].
Qed.

Lemma sortBy_name_sorted l : Sorted name_le (sortBy_name l).
Proof.
  induction l as [| x l IH]; [constructor |]. by apply insert_by_name_sorted.
Qed.

(** Items of one name keep their relative order. *)
Lemma insert_by_name_filter (n : string) x l :
  filter (λ y, name y = n) (insert_by_name x l)
  = filter (λ y, name y = n) (x :: l).
Proof.
  induction l as [| y l IH]; [done |]. simpl.
  destruct (String.leb (name x) (name y)) eqn:Hxy; [done |].
  assert (name y ≠ name x) as Hne.
  { intros E. rewrite E in Hxy.
    destruct (String.leb_total (name x) (name x)); congruence. }
  rewrite (filter_cons _ y), IH, !filter_cons.
  repeat case_decide; congruence.
Qed.

Lemma sortBy_name_stable (n : string) l :
  filter (λ y, name y = n) (sortBy_name l) = filter (λ y, name y = n) l.
Proof.
  induction l as [| x l IH]; [done |]. simpl.
  rewrite insert_by_name_filter, !filter_cons, IH. done.
Qed.

Lemma fav_item_entries (isAdded : Item → bool) (onAdd : Item → list Effect) l :
  fav_item <$> ((λ x, {| fav_item := x; fav_added := isAdded x;
                         fav_onClick := onAdd x |}) <$> l) = l.
Proof. induction l as [| x l IH]; [done |]. by rewrite !fmap_cons, IH. Qed.

Lemma row_item_rows cfg (isAdded : Item → bool) (onAdd : Item → list Effect)
    (favorites : Favorites) l :
  row_item <$> ((λ r, ResultItem r (isAdded r) (isFavorite cfg favorites r)
                        (onAdd r)) <$> l) = l.
Proof. induction l as [| x l IH]; [done |]. by rewrite !fmap_cons, IH. Qed.

End DisplayFacts.

(** X7. The favourites dropdown is absent when [favorites] is null or has no
    entry. Otherwise it lists every favourite exactly once, in ascending
    order of name, favourites of the same name in the order the object lists
    them; an entry is marked as added exactly when [isAdded] says so, and a
    click on it runs [onAdd] on that favourite whether marked or not. *)
Theorem favorites_dropdown_sorted (favorites : Display.Favorites)
    (isAdded : Search.Item → bool) (onAdd : Search.Item → list Search.Effect) :
  (favorites = None ∨ favorites = Some [] →
   Display.favoritesDropdown favorites isAdded onAdd = None)
  ∧ (∀ favs, favorites = Some favs → favs ≠ [] →
     ∃ entries,
       Display.favoritesDropdown favorites isAdded onAdd = Some entries
       ∧ Display.fav_item <$> entries ≡ₚ favs.*2
       ∧ Sorted Display.name_le (Display.fav_item <$> entries)
       ∧ (∀ n, filter (λ y, Search.name y = n) (Display.fav_item <$> entries)
               = filter (λ y, Search.name y = n) favs.*2)
       ∧ Forall (λ e, Display.fav_added e = isAdded (Display.fav_item e)
                      ∧ Display.fav_onClick e = onAdd (Display.fav_item e))
           entries).
Proof.
  split.
  - by intros [-> | ->].
  - intros favs -> Hne. destruct favs as [| kv favs]; [done |].
    exists ((λ x, {| Display.fav_item := x; Display.fav_added := isAdded x;
                     Display.fav_onClick := onAdd x |})
              <$> Display.sortBy_name (kv :: favs).*2).
    split; [reflexivity |]. rewrite fav_item_entries.
    split; [apply sortBy_name_perm |].
    split; [apply sortBy_name_sorted |].
    split; [intros n; apply sortBy_name_stable |].
    apply Forall_fmap, Forall_forall. by intros x _.
Qed.

Lemma favorites_dropdown_sorted_witness :
  ∃ entries,
    Display.favoritesDropdown
      (Some [("7", sample_item "b"); ("9", sample_item "a")])
      (Search.isAdded multi_props (opened []))
      (Search.handleAdd multi_props (opened [])) = Some entries
    ∧ Display.fav_item <$> entries = [sample_item "a"; sample_item "b"].
Proof.
  destruct (proj2 (favorites_dropdown_sorted
      (Some [("7", sample_item "b"); ("9", sample_item "a")])
      (Search.isAdded multi_props (opened []))
      (Search.handleAdd multi_props (opened []))) _ eq_refl)
    as (entries & Hd & _); [discriminate |].
  exists entries. split; [exact Hd |].
  vm_compute in Hd. injection Hd as <-. reflexivity.
Defined.

(** X8. In every state a session can reach, the header shows no label when
    nothing is staged; otherwise the label is the number of staged items and
    the popup lists exactly the staged items, in ascending order of name,
    with pairwise different identifiers (the keys of its list items). *)
Theorem header_popup_lists_staged (evs : list (Search.Props * Search.Event)) :
  match Display.headerPopup (Search.run Search.initial evs) with
  | None => Search.staged (Search.run Search.initial evs) = []
  | Some (n, l) =>
      n = length (Search.staged (Search.run Search.initial evs))
      ∧ n ≠ 0%nat
      ∧ l ≡ₚ Search.staged (Search.run Search.initial evs)
      ∧ Sorted Display.name_le l
      ∧ NoDup (Search.identifier <$> l)
  end.
Proof.
  unfold Display.headerPopup. case_bool_decide as Hlen.
  - by apply nil_length_inv.
  - split; [done |]. split; [done |].
    split; [apply sortBy_name_perm |]. split; [apply sortBy_name_sorted |].
    rewrite (sortBy_name_perm _). apply staged_NoDup_run. constructor.
Qed.

(** X9. A result row gets the favourite star only in the user search and
    only for favourites: never when [favorites] is null, never in the group
    search, and in the user search, with the favourites keyed by user id,
    exactly when the row's user id is one of those ids. *)
Theorem star_marks_favorite_users (r : Search.Item) :
  (∀ cfg, Display.isFavorite cfg None r = false)
  ∧ (∀ favs, Display.isFavorite Display.GroupSearch favs r = false)
  ∧ (∀ favs (ids : list Z) (n : Z),
       favs.*1 = pretty <$> ids →
       Search.userId r = Some n →
       (Display.isFavorite Display.InnerUserSearch (Some favs) r = true
        ↔ n ∈ ids)).
Proof.
  split; [done |]. split; [by intros [favs |] |].
  intros favs ids n Hkeys Hid.
  unfold Display.isFavorite, Display.item_get. simpl. rewrite Hid. simpl.
  rewrite bool_decide_eq_true, Hkeys.
  apply (list_elem_of_fmap_inj (pretty : Z → string)).
Qed.

Lemma star_marks_favorite_users_witness :
  Display.isFavorite Display.InnerUserSearch
    (Some [("7", sample_item "b"); ("9", sample_item "a")])
    (Query.userItem {| Query.u_identifier := "User:7"; Query.u_id := 7;
                       Query.u_fullName := "Ada Lovelace";
                       Query.u_email := "ada@example.org";
                       Query.u_affiliation := "CERN" |}) = true.
Proof.
  apply (proj2 (proj2 (star_marks_favorite_users _)) _ [7; 9] 7);
    [reflexivity | reflexivity |].
  apply list_elem_of_here.
Defined.

(** X10. Below the form nothing is shown while the result is null. For a
    result with [total] 0 only the no-results text is shown, even if it
    carries results. Otherwise there is one row per result, in the order of
    the result; the too-many message is shown exactly when [total] exceeds
    the number of results; and a row offers the add icon exactly when its
    identifier is neither in [existing] nor staged, the icon running
    [handleAdd] on that row's item. *)
Theorem result_rows_offer_new_items (cfg : Display.Config) (p : Search.Props)
    (st : Search.State) (favorites : Display.Favorites) (r : Query.ResultData) :
  Display.SearchContent cfg (Search.handleAdd p st) (Search.isAdded p st)
    favorites None = None
  ∧ (Query.total r = 0%Z →
     Display.SearchContent cfg (Search.handleAdd p st) (Search.isAdded p st)
       favorites (Some r)
     = Some (Display.NoResults (Display.noResultsText cfg)))
  ∧ (Query.total r ≠ 0%Z →
     ∃ rows tooMany,
       Display.SearchContent cfg (Search.handleAdd p st) (Search.isAdded p st)
         favorites (Some r)
       = Some (Display.ResultList rows tooMany)
       ∧ Display.row_item <$> rows = Query.results r
       ∧ (tooMany = Some (Display.tooManyText cfg)
          ∨ tooMany = None)
       ∧ (tooMany = None
          ↔ (Query.total r ≤ Z.of_nat (length (Query.results r)))%Z)
       ∧ Forall (λ row,
           (Display.row_onAdd row = None
            ↔ (Search.identifier (Display.row_item row) ∈ Search.existing p)
              ∨ (Search.identifier (Display.row_item row)
                   ∈ Search.identifier <$> Search.staged st))
           ∧ (∀ es, Display.row_onAdd row = Some es →
                    es = Search.handleAdd p st (Display.row_item row)))
           rows).
Proof.
  split; [done |]. split.
  - intros Ht. unfold Display.SearchContent, Display.SearchResults.
    by rewrite Ht.
  - intros Ht. unfold Display.SearchContent, Display.SearchResults.
    apply Z.eqb_neq in Ht. rewrite Ht. simpl.
    eexists _, _. split; [reflexivity |]. rewrite row_item_rows.
    split; [done |]. split; [case_bool_decide; auto |]. split.
    + case_bool_decide as Hlt; split; try done; lia.
    + apply Forall_fmap, Forall_forall. intros x _. simpl.
      rewrite <- isAdded_true_iff.
      destruct (Search.isAdded p st x); split; try done;
        try (split; discriminate); intros es [= <-]; reflexivity.
Qed.

Lemma result_rows_offer_new_items_witness :
  Display.SearchContent Display.InnerUserSearch
    (Search.handleAdd multi_props (opened []))
    (Search.isAdded multi_props (opened [])) None
    (Some {| Query.total := 0; Query.results := [sample_item "a"] |})
  = Some (Display.NoResults "No users found").
Proof.
  exact (proj1 (proj2 (result_rows_offer_new_items Display.InnerUserSearch
    multi_props (opened []) None
    {| Query.total := 0; Query.results := [sample_item "a"] |})) eq_refl).
Defined.

(** ** Successful searches, valid forms, shared objects *)

Section MoreQueryFacts.
Import Js Query.

Lemma userItem_identifiers (us : list RawUser) :
  Search.identifier <$> (userItem <$> us) = u_identifier <$> us.
Proof. induction us as [| u us IH]; [done |]. by rewrite !fmap_cons, IH. Qed.

Lemma userItem_names (us : list RawUser) :
  Search.name <$> (userItem <$> us) = u_fullName <$> us.
Proof. induction us as [| u us IH]; [done |]. by rewrite !fmap_cons, IH. Qed.

Lemma groupItem_identifiers (gs : list RawGroup) :
  Search.identifier <$> (groupItem <$> gs) = g_identifier <$> gs.
Proof. induction gs as [| g gs IH]; [done |]. by rewrite !fmap_cons, IH. Qed.

Lemma groupItem_names (gs : list RawGroup) :
  Search.name <$> (groupItem <$> gs) = g_name <$> gs.
Proof. induction gs as [| g gs IH]; [done |]. by rewrite !fmap_cons, IH. Qed.

(** A group's detail is a non-empty provider title or null. *)
Lemma groupItem_detail (g : RawGroup) : Search.detail (groupItem g) ≠ Some "".
Proof.
  unfold groupItem. simpl. destruct (g_providerTitle g) as [t |]; [| done].
  destruct (String.eqb t "") eqn:E; [done |].
  apply String.eqb_neq in E. congruence.
Qed.

(** A truthy property is a property that is there. *)
Lemma truthy_get (o : obj) k :
  truthy (get o k) = true → ∃ v, o !! k = Some v ∧ truthy v = true.
Proof.
  unfold get. destruct (o !! k) as [v |]; simpl; [eauto | discriminate].
Qed.

(** Values that pass [validateForm] carry a truthy criterion. *)
Lemma validateForm_None_criterion (values : obj) :
  validateForm values = None →
  ∃ k v, k ∈ ["first_name"; "last_name"; "email"; "affiliation"]
         ∧ values !! k = Some v ∧ truthy v = true.
Proof.
  unfold validateForm.
  destruct (truthy (get values "first_name")) eqn:H1;
    [apply truthy_get in H1 as (v & ? & ?); intros _;
     exists "first_name", v; split; [set_solver | done] |].
  destruct (truthy (get values "last_name")) eqn:H2;
    [apply truthy_get in H2 as (v & ? & ?); intros _;
     exists "last_name", v; split; [set_solver | done] |].
  destruct (truthy (get values "email")) eqn:H3;
    [apply truthy_get in H3 as (v & ? & ?); intros _;
     exists "email", v; split; [set_solver | done] |].
  destruct (truthy (get values "affiliation")) eqn:H4;
    [apply truthy_get in H4 as (v & ? & ?); intros _;
     exists "affiliation", v; split; [set_solver | done] |].
  discriminate.
Qed.

End MoreQueryFacts.

(** X11. When the request succeeds, [runSearch] does exactly three things:
    it resets the result, issues the GET and stores the new result, and it
    returns undefined. The stored result has the response's [total] and one
    entry per user (group) of the response, in the same order with the same
    identifiers and names. User entries have [group] false, a user id and a
    detail; group entries have [group] true, no user id, and a detail that
    is never the empty string. *)
Theorem search_success_shows_results {Error SubmitErrors Response : Type}
    (handleSubmitError : Error → SubmitErrors)
    (camelizeUsers : Response → Query.UserData)
    (camelizeGroups : Response → Query.GroupData)
    (server : Query.Endpoint → Js.obj → Error + Response)
    (data : Js.obj) (r0 : option Query.ResultData) (response : Response) :
  (server Query.userSearchURL
     (<["favorites_first" := Js.Bool true]> (Query.truthyEntries data))
   = inr response →
   ∃ r,
     Query.exec server
       (Query.userRunSearch handleSubmitError camelizeUsers data) r0
     = {| Query.trace :=
            [Query.DidSetResult None;
             Query.DidGet Query.userSearchURL
               (<["favorites_first" := Js.Bool true]> (Query.truthyEntries data));
             Query.DidSetResult (Some r)];
          Query.shown := Some r;
          Query.returned := None |}
     ∧ Query.total r = Query.ud_total (camelizeUsers response)
     ∧ Search.identifier <$> Query.results r
       = Query.u_identifier <$> Query.ud_users (camelizeUsers response)
     ∧ Search.name <$> Query.results r
       = Query.u_fullName <$> Query.ud_users (camelizeUsers response)
     ∧ Forall (λ it, Search.group it = false
                     ∧ is_Some (Search.userId it)
                     ∧ is_Some (Search.detail it))
         (Query.results r))
  ∧ (server Query.groupSearchURL (Query.truthyEntries data) = inr response →
     ∃ r,
       Query.exec server
         (Query.groupRunSearch handleSubmitError camelizeGroups data) r0
       = {| Query.trace :=
              [Query.DidSetResult None;
               Query.DidGet Query.groupSearchURL (Query.truthyEntries data);
               Query.DidSetResult (Some r)];
            Query.shown := Some r;
            Query.returned := None |}
       ∧ Query.total r = Query.gd_total (camelizeGroups response)
       ∧ Search.identifier <$> Query.results r
         = Query.g_identifier <$> Query.gd_groups (camelizeGroups response)
       ∧ Search.name <$> Query.results r
         = Query.g_name <$> Query.gd_groups (camelizeGroups response)
       ∧ Forall (λ it, Search.group it = true
                       ∧ Search.userId it = None
                       ∧ Search.detail it ≠ Some "")
           (Query.results r)).
Proof.
  split; intros Hok.
  - eexists. split; [simpl; rewrite Hok; reflexivity |]. simpl.
    split; [done |]. split; [apply userItem_identifiers |].
    split; [apply userItem_names |].
    apply Forall_fmap, Forall_forall. intros u _. simpl.
    split; [done |]. split; eauto.
  - eexists. split; [simpl; rewrite Hok; reflexivity |]. simpl.
    split; [done |]. split; [apply groupItem_identifiers |].
    split; [apply groupItem_names |].
    apply Forall_fmap, Forall_forall. intros g _.
    split; [done |]. split; [done |]. apply groupItem_detail.
Qed.

Lemma search_success_shows_results_witness :
  ∃ r, Query.shown (Query.exec answering_server
         (Query.userRunSearch sample_handleSubmitError one_user sample_form)
         stale_result) = Some r
       ∧ Search.identifier <$> Query.results r = ["User:7"].
Proof.
  destruct (proj1 (search_success_shows_results sample_handleSubmitError
      one_user one_group answering_server sample_form stale_result tt) eq_refl)
    as (r & Hexec & _ & Hids & _).
  exists r. split; [by rewrite Hexec | exact Hids].
Defined.

(** X12. Form values that pass [validateForm] never produce an empty user
    search: the query of the GET carries at least one of [first_name],
    [last_name], [email] and [affiliation], with a truthy value. *)
Theorem valid_form_sends_a_criterion {Error SubmitErrors Response : Type}
    (handleSubmitError : Error → SubmitErrors)
    (camelizeUsers : Response → Query.UserData)
    (server : Query.Endpoint → Js.obj → Error + Response)
    (data : Js.obj) (r0 : option Query.ResultData) :
  Query.validateForm data = None →
  ∃ q rest k v,
    Query.trace (Query.exec server
                   (Query.userRunSearch handleSubmitError camelizeUsers data) r0)
    = Query.DidSetResult None :: Query.DidGet Query.userSearchURL q :: rest
    ∧ k ∈ ["first_name"; "last_name"; "email"; "affiliation"]
    ∧ q !! k = Some v
    ∧ Js.truthy v = true.
Proof.
  intros Hvalid.
  destruct (validateForm_None_criterion data Hvalid) as (k & v & Hk & Hv & Ht).
  eexists _, _, k, v. split; [reflexivity |]. split; [done |]. split; [| done].
  rewrite lookup_insert_ne.
  - by apply truthyEntries_lookup.
  - intros <-.
    repeat (apply elem_of_cons in Hk as [Hk | Hk]; [discriminate Hk |]).
    by apply not_elem_of_nil in Hk.
Qed.

Lemma valid_form_sends_a_criterion_witness :
  ∃ q rest k v,
    Query.trace (Query.exec failing_server
                   (Query.userRunSearch sample_handleSubmitError no_users
                      sample_form) stale_result)
    = Query.DidSetResult None :: Query.DidGet Query.userSearchURL q :: rest
    ∧ k ∈ ["first_name"; "last_name"; "email"; "affiliation"]
    ∧ q !! k = Some v
    ∧ Js.truthy v = true.
Proof.
  apply (valid_form_sends_a_criterion sample_handleSubmitError no_users
           failing_server sample_form stale_result).
  reflexivity.
Defined.

(** X13. Rendering the wrapper again with the same props changes nothing
    further. Because the key [external] is deleted from the caller's own
    object, a wrapper rendered with [withExternalUsers] false takes the
    default away for good: a later render on the same object with
    [withExternalUsers] true provides the values without [external]. *)
Theorem wrapper_rerender_and_alias (withExternalUsers : bool) (l : nat)
    (h : Wrapper.heap) :
  Wrapper.UserSearch withExternalUsers l (Wrapper.UserSearch withExternalUsers l h).1
  = Wrapper.UserSearch withExternalUsers l h
  ∧ (∀ o, h !! l = Some o →
       Wrapper.initialValues
         (Wrapper.UserSearch true l (Wrapper.UserSearch false l h).1).1
         (Wrapper.UserSearch true l (Wrapper.UserSearch false l h).1).2
       = Some (delete "external" o)).
Proof.
  split.
  - unfold Wrapper.UserSearch. destruct withExternalUsers; simpl; [done |].
    f_equal. apply map_eq. intros i.
    destruct (decide (i = l)) as [-> | Hne].
    + rewrite !lookup_alter_eq. destruct (h !! l) as [o |]; [| done]. simpl.
      f_equal. apply delete_id, lookup_delete_eq.
    + by rewrite !lookup_alter_ne.
  - intros o Hl. unfold Wrapper.initialValues, Wrapper.UserSearch. simpl.
    by rewrite lookup_alter_eq, Hl.
Qed.

Lemma wrapper_rerender_and_alias_witness :
  Wrapper.initialValues
    (Wrapper.UserSearch true 0%nat (Wrapper.UserSearch false 0%nat sample_heap).1).1
    (Wrapper.UserSearch true 0%nat (Wrapper.UserSearch false 0%nat sample_heap).1).2
  = Some (delete "external"
            {[ "external" := Js.Bool true; "exact" := Js.Bool true ]}).
Proof.
  exact (proj2 (wrapper_rerender_and_alias false 0%nat sample_heap) _ eq_refl).
Defined.
